(** * CoDiPack: forward tape and generated unary expression nodes

    A shallow embedding of
    - [include/tapes/tapeInterface.hpp]   (class [TapeInterface]),
    - [include/tapes/forwardEvaluation.hpp] (class [ForwardEvaluation]),
    - [include/unaryExpression.tpp]       (the generator of unary nodes),
    followed by the properties of derivative propagation.

    The C++ code is a template over the number type [Real].  The embedding
    keeps that: [Real] is a type with the arithmetic the code uses, and
    every law of that arithmetic a theorem relies on is a named premise of
    the theorem.  Two instances are given: the integers, where all the laws
    hold, and IEEE 754 binary64, where the laws of rounding-free arithmetic
    fail.  A [Real&] parameter is modelled by passing the referenced
    value in and returning the updated one. *)

From Stdlib Require Import List String ZArith Lia Permutation SpecFloat.
Import ListNotations.

Set Implicit Arguments.

(** ** The number type *)

(** What the code asks of [Real] (and of [TypeTraits<Real>::PassiveReal],
    declared in [typeTraits.hpp]): value initialisation [Real()], the
    literal one, [+] (from [+=]), [*], and the conversion that the
    assignment [value = rhs] of a passive number performs. *)
Class RealOps (Real PassiveReal : Type) : Type := {
  Rzero : Real;
  Rone : Real;
  Radd : Real -> Real -> Real;
  Rmul : Real -> Real -> Real;
  ofPassive : PassiveReal -> Real
}.

Declare Scope real_scope.
Delimit Scope real_scope with real.
Infix "+" := Radd : real_scope.
Infix "*" := Rmul : real_scope.

(** ** Call log

    Calls that the claims count: the primal function and the derivative
    formula of a generated operation, and the two Jacobian pushes. *)
Inductive event (Real : Type) : Type :=
| PrimalCall (name : string) (x : Real)
| GradientCall (name : string) (x result : Real)
| PushJacobiOne (value curTangent : Real)
| PushJacobi (jacobi value curTangent : Real).

Arguments PrimalCall {Real} name x.
Arguments GradientCall {Real} name x result.
Arguments PushJacobiOne {Real} value curTangent.
Arguments PushJacobi {Real} jacobi value curTangent.

(** A computation that returns [val] and has made the calls [log],
    oldest first. *)
Record Traced (Real A : Type) : Type :=
  mkTraced { val : A; log : list (event Real) }.

Definition ret {Real A : Type} (a : A) : Traced Real A := mkTraced a [].

Definition bind {Real A B : Type}
    (c : Traced Real A) (k : A -> Traced Real B) : Traced Real B :=
  let r := k (val c) in mkTraced (val r) (log c ++ log r).

Definition emit {Real : Type} (e : event Real) : Traced Real unit :=
  mkTraced tt [e].

Declare Scope traced_scope.
Delimit Scope traced_scope with traced.
Notation "x <- c ;; k" := (bind c (fun x => k))
  (at level 61, c at next level, right associativity) : traced_scope.
Notation "c ;; k" := (bind c (fun _ => k))
  (at level 61, right associativity) : traced_scope.

Local Open Scope real_scope.
Local Open Scope traced_scope.

(** ** tapeInterface.hpp *)

(** The operations of [TapeInterface<Real, GradientDataType>] that do not
    depend on the expression type.  [EvalData] is [Real] at every call
    site of the sources.  The overloads of [store] are given with the
    forward tape, once expressions exist. *)
Class TapeInterface (Real GradientData : Type) : Type := {
  pushJacobiOne : Real -> Real -> GradientData -> Traced Real Real;
  pushJacobi : Real -> Real -> Real -> GradientData -> Traced Real Real;
  initGradientData : Real -> GradientData -> Real * GradientData;
  destroyGradientData : Real -> GradientData -> Real * GradientData;
  setGradient : GradientData -> Real -> GradientData;
  getGradient : GradientData -> Real
}.

(** [inline void pushPassive(const PassiveReal& value) { CODI_UNUSED(value); }] *)
Definition pushPassive {PassiveReal : Type} (value : PassiveReal) : unit := tt.

Section Codi.
Context {Real PassiveReal : Type} {ops : RealOps Real PassiveReal}.

(** ** forwardEvaluation.hpp *)

(** [typedef Real GradientData;] *)
Definition GradientData : Type := Real.

(** [lhsTangent += curTangent;] *)
Definition ForwardEvaluation_pushJacobiOne
    (lhsTangent value : Real) (curTangent : GradientData) : Traced Real Real :=
  emit (PushJacobiOne value curTangent) ;;
  ret (lhsTangent + curTangent).

(** [lhsTangent += jacobi * curTangent;] *)
Definition ForwardEvaluation_pushJacobi
    (lhsTangent jacobi value : Real) (curTangent : GradientData) : Traced Real Real :=
  emit (PushJacobi jacobi value curTangent) ;;
  ret (lhsTangent + jacobi * curTangent).

(** [tangent = Real();] *)
Definition ForwardEvaluation_initGradientData
    (value : Real) (tangent : GradientData) : Real * GradientData :=
  (value, Rzero).

(** [/* do nothing */] *)
Definition ForwardEvaluation_destroyGradientData
    (value : Real) (tangent : GradientData) : Real * GradientData :=
  (value, tangent).

(** [tangent = newTangent;] *)
Definition ForwardEvaluation_setGradient
    (tangent : GradientData) (newTangent : Real) : GradientData :=
  newTangent.

(** [return tangent;] *)
Definition ForwardEvaluation_getGradient (tangent : GradientData) : Real :=
  tangent.

(** [class ForwardEvaluation : public TapeInterface<Real, Real>] *)
#[export] Instance ForwardEvaluation : TapeInterface Real GradientData := {
  pushJacobiOne := ForwardEvaluation_pushJacobiOne;
  pushJacobi := ForwardEvaluation_pushJacobi;
  initGradientData := ForwardEvaluation_initGradientData;
  destroyGradientData := ForwardEvaluation_destroyGradientData;
  setGradient := ForwardEvaluation_setGradient;
  getGradient := ForwardEvaluation_getGradient
}.

(** ** Active variables and the expression interface *)

(** Modelled from the spec: [activeReal.hpp] is not among the sources.  An
    active variable [ActiveReal<Real, ForwardEvaluation<Real> >] owns one
    primal value and one gradient handle, and routes its methods through
    the tape: as a leaf of an expression it receives its contribution via
    the tape's Jacobian push. *)
Record ActiveReal : Type :=
  mkActiveReal { primalValue : Real; gradientData : GradientData }.

Definition ActiveReal_getValue (x : ActiveReal) : Real := primalValue x.

Definition ActiveReal_getGradient (x : ActiveReal) : Real :=
  getGradient (gradientData x).

Definition ActiveReal_calcGradient (x : ActiveReal) (gradient : Real)
    : Traced Real Real :=
  pushJacobiOne gradient (primalValue x) (gradientData x).

Definition ActiveReal_calcGradientM (x : ActiveReal)
    (gradient multiplier : Real) : Traced Real Real :=
  pushJacobi gradient multiplier (primalValue x) (gradientData x).

(** The members of [Expression<Real, A>] that the sources call on an
    operand or on a right hand side: [getValue()], [calcGradient(gradient)]
    and [calcGradient(gradient, multiplier)].  [cast()] is the identity. *)
Class Expression (A : Type) : Type := {
  getValue : A -> Real;
  calcGradient : A -> Real -> Traced Real Real;
  calcGradientM : A -> Real -> Real -> Traced Real Real
}.

#[export] Instance ActiveReal_Expression : Expression ActiveReal := {
  getValue := ActiveReal_getValue;
  calcGradient := ActiveReal_calcGradient;
  calcGradientM := ActiveReal_calcGradientM
}.

(** ** unaryExpression.tpp *)

(** What an inclusion of the template defines: [NAME], [PRIMAL_FUNCTION]
    and the user's [gradNAME], called as [GRADIENT_FUNC(a, result)]. *)
Record Operation : Type := mkOperation {
  NAME : string;
  PRIMAL_CALL : Real -> Real;
  GRADIENT_FUNC : Real -> Real -> Real
}.

(** The types [OP<Real, A>] with [A] an active variable or again such a
    type.  A node holds its argument [a_] by value and the precomputed
    [result_]. *)
Inductive Expr : Type :=
| Active (x : ActiveReal)
| OP (op : Operation) (a_ : Expr) (result_ : Real).

(** [inline const Real& getValue() const { return result_; }] *)
Definition Expr_getValue (e : Expr) : Real :=
  match e with
  | Active x => ActiveReal_getValue x
  | OP _ _ result_ => result_
  end.

(** [a_.calcGradient(gradient, GRADIENT_FUNC(a_.getValue(), result_)*multiplier);] *)
Fixpoint Expr_calcGradientM (e : Expr) (gradient multiplier : Real)
    : Traced Real Real :=
  match e with
  | Active x => ActiveReal_calcGradientM x gradient multiplier
  | OP op a_ result_ =>
      emit (GradientCall (NAME op) (Expr_getValue a_) result_) ;;
      Expr_calcGradientM a_ gradient
        (GRADIENT_FUNC op (Expr_getValue a_) result_ * multiplier)
  end.

(** [a_.calcGradient(gradient, GRADIENT_FUNC(a_.getValue(), result_));] *)
Definition Expr_calcGradient (e : Expr) (gradient : Real) : Traced Real Real :=
  match e with
  | Active x => ActiveReal_calcGradient x gradient
  | OP op a_ result_ =>
      emit (GradientCall (NAME op) (Expr_getValue a_) result_) ;;
      Expr_calcGradientM a_ gradient
        (GRADIENT_FUNC op (Expr_getValue a_) result_)
  end.

#[export] Instance Expr_Expression : Expression Expr := {
  getValue := Expr_getValue;
  calcGradient := Expr_calcGradient;
  calcGradientM := Expr_calcGradientM
}.

(** The constructor
    [OP(const Expression<Real, A>& a) : a_(a.cast()), result_(PRIMAL_CALL(a.getValue())) {}] *)
Definition OP_new (op : Operation) (a : Expr) : Traced Real Expr :=
  emit (PrimalCall (NAME op) (Expr_getValue a)) ;;
  ret (OP op a (PRIMAL_CALL op (Expr_getValue a))).

(** [FUNC(a)]: [return codi:: OP<Real, A>(a.cast());] *)
Definition FUNC (op : Operation) (a : Expr) : Traced Real Expr :=
  OP_new op a.

(** ** forwardEvaluation.hpp, the overloads of store *)

(** The two output parameters [Real& value, GradientData& lhsTangent]. *)
Record Lhs : Type :=
  mkLhs { lhsValue : Real; lhsGradientData : GradientData }.

(** [template<typename Rhs> store(value, lhsTangent, rhs)]:
    [lhsTangent = Real(); rhs.calcGradient(lhsTangent);] *)
Definition store {Rhs : Type} {E : Expression Rhs}
    (value : Real) (lhsTangent : GradientData) (rhs : Rhs) : Traced Real Lhs :=
  let lhsTangent := Rzero in
  lhsTangent <- calcGradient rhs lhsTangent ;;
  ret (mkLhs value lhsTangent).

(** [store(value, lhsTangent, const ActiveReal<Real, ForwardEvaluation<Real> >& rhs)]:
    [lhsTangent = rhs.getGradient(); value = rhs.getValue();] *)
Definition storeActive
    (value : Real) (lhsTangent : GradientData) (rhs : ActiveReal)
    : Traced Real Lhs :=
  let lhsTangent := ActiveReal_getGradient rhs in
  let value := ActiveReal_getValue rhs in
  ret (mkLhs value lhsTangent).

(** [store(value, tangent, const typename TypeTraits<Real>::PassiveReal& rhs)]:
    [tangent = Real(); value = rhs;] *)
Definition storePassive
    (value : Real) (tangent : GradientData) (rhs : PassiveReal)
    : Traced Real Lhs :=
  let tangent := Rzero in
  let value := ofPassive rhs in
  ret (mkLhs value tangent).

(** ** The binary analogue, for addition *)

(** Modelled from the spec: [binaryExpression.tpp] is not among the
    sources.  The generator applied with two operands, for [operator +]:
    the node holds both operands by value and the precomputed result; an
    addition term has local Jacobian one, so propagation visits each
    operand exactly once, first [a_] then [b_], with the accumulator and
    the incoming multiplier as they are. *)
Record Add (A B : Type) : Type :=
  mkAdd { Add_a_ : A; Add_b_ : B; Add_result_ : Real }.

Definition Add_new {A B : Type} {EA : Expression A} {EB : Expression B}
    (a : A) (b : B) : Add A B :=
  mkAdd a b (getValue a + getValue b).

Definition Add_calcGradient {A B : Type} {EA : Expression A}
    {EB : Expression B} (n : Add A B) (gradient : Real) : Traced Real Real :=
  gradient <- calcGradient (Add_a_ n) gradient ;;
  calcGradient (Add_b_ n) gradient.

Definition Add_calcGradientM {A B : Type} {EA : Expression A}
    {EB : Expression B} (n : Add A B) (gradient multiplier : Real)
    : Traced Real Real :=
  gradient <- calcGradientM (Add_a_ n) gradient multiplier ;;
  calcGradientM (Add_b_ n) gradient multiplier.

#[export] Instance Add_Expression {A B : Type} {EA : Expression A}
    {EB : Expression B} : Expression (Add A B) := {
  getValue := @Add_result_ A B;
  calcGradient := Add_calcGradient;
  calcGradientM := Add_calcGradientM
}.

(** ** Notions the properties are stated with *)

(** The total derivative of an expression by the chain rule of the
    documentation of [ForwardEvaluation]: the tangent of the variable at a
    leaf, and [df/dx] times the total derivative of the argument at a
    node. *)
Fixpoint totalDerivative (e : Expr) : Real :=
  match e with
  | Active x => ActiveReal_getGradient x
  | OP op a_ result_ =>
      GRADIENT_FUNC op (Expr_getValue a_) result_ * totalDerivative a_
  end.

(** The variable at the leaf of a tree of unary nodes, and the multiplier
    that reaches it when the root is entered with [multiplier]. *)
Fixpoint leaf (e : Expr) : ActiveReal :=
  match e with
  | Active x => x
  | OP _ a_ _ => leaf a_
  end.

Fixpoint leafMultiplier (e : Expr) (multiplier : Real) : Real :=
  match e with
  | Active _ => multiplier
  | OP op a_ result_ =>
      leafMultiplier a_ (GRADIENT_FUNC op (Expr_getValue a_) result_ * multiplier)
  end.

(** Uses of a node after its construction: the three [const] members. *)
Inductive query : Type :=
| GetValue
| CalcGradient (gradient : Real)
| CalcGradientM (gradient multiplier : Real).

Definition invoke (e : Expr) (q : query) : Traced Real Real :=
  match q with
  | GetValue => ret (Expr_getValue e)
  | CalcGradient gradient => Expr_calcGradient e gradient
  | CalcGradientM gradient multiplier => Expr_calcGradientM e gradient multiplier
  end.

Fixpoint session (e : Expr) (qs : list query) : Traced Real (list Real) :=
  match qs with
  | [] => ret []
  | q :: qs' =>
      r <- invoke e q ;;
      rs <- session e qs' ;;
      ret (r :: rs)
  end.

(** Answers of a session: a [getValue()] query is answered by [result]. *)
Definition answered (result : Real) (q : query) (r : Real) : Prop :=
  match q with
  | GetValue => r = result
  | _ => True
  end.

Definition isPrimalCall (ev : event Real) : bool :=
  match ev with
  | PrimalCall _ _ => true
  | _ => false
  end.

Definition primalCalls (l : list (event Real)) : nat :=
  List.length (filter isPrimalCall l).

(** Laws of the arithmetic of [Real]; each theorem names the ones it uses. *)
Definition Radd_zero_left : Prop := forall x : Real, Rzero + x = x.
Definition Rmul_one_left : Prop := forall x : Real, Rone * x = x.
Definition Rmul_one_right : Prop := forall x : Real, x * Rone = x.
Definition Rmul_commutative : Prop := forall x y : Real, x * y = y * x.
Definition Rmul_associative : Prop :=
  forall x y z : Real, x * (y * z) = (x * y) * z.
Definition Radd_zero_right : Prop := forall x : Real, x + Rzero = x.
Definition Rmul_zero_right : Prop := forall x : Real, x * Rzero = Rzero.
Definition Radd_commutative : Prop := forall x y : Real, x + y = y + x.
Definition Radd_associative : Prop :=
  forall x y z : Real, x + (y + z) = (x + y) + z.

(** ** forwardEvaluation.hpp, access by reference *)

(** A [Real&] into a gradient handle: what reading it yields, and what the
    handle holds after an assignment through it. *)
Record Reference : Type :=
  mkReference { deref : Real; assign : Real -> GradientData }.

(** [inline Real& gradient(GradientData& tangent) { return tangent; }] *)
Definition ForwardEvaluation_gradient (tangent : GradientData) : Reference :=
  mkReference tangent (fun newValue => newValue).

(** ** Chains of generated operations *)

(** User code [f1(f2(... fn(x)))] for the operations [f1; f2; ...; fn]:
    the free functions [FUNC] are applied from the innermost one. *)
Fixpoint compose (fs : list Operation) (x : ActiveReal) : Traced Real Expr :=
  match fs with
  | [] => ret (Active x)
  | f :: fs' => a <- compose fs' x ;; FUNC f a
  end.

(** The plain composition of the primal functions at [v]. *)
Fixpoint chainValue (fs : list Operation) (v : Real) : Real :=
  match fs with
  | [] => v
  | f :: fs' => PRIMAL_CALL f (chainValue fs' v)
  end.

(** The derivative of that composition at [v] by the chain rule, each
    factor being the derivative formula of one operation at its argument
    and result. *)
Fixpoint chainDerivative (fs : list Operation) (v : Real) : Real :=
  match fs with
  | [] => Rone
  | f :: fs' =>
      GRADIENT_FUNC f (chainValue fs' v) (chainValue fs v)
      * chainDerivative fs' v
  end.

(** The primal calls of the construction, innermost first. *)
Fixpoint primalLog (fs : list Operation) (v : Real) : list (event Real) :=
  match fs with
  | [] => []
  | f :: fs' => primalLog fs' v ++ [PrimalCall (NAME f) (chainValue fs' v)]
  end.

(** The calls of the derivative formulas of a tree, from the root down. *)
Fixpoint gradientLog (e : Expr) : list (event Real) :=
  match e with
  | Active _ => []
  | OP op a_ result_ =>
      GradientCall (NAME op) (Expr_getValue a_) result_ :: gradientLog a_
  end.

(** The number of generated nodes above the variable. *)
Fixpoint depth (e : Expr) : nat :=
  match e with
  | Active _ => 0
  | OP _ a_ _ => S (depth a_)
  end.

(** An active variable as [initGradientData] leaves it after construction
    with value [v], and as the constant overload of [store] leaves it
    after [x = c]. *)
Definition initialised (v : Real) (t : GradientData) : ActiveReal :=
  let r := ForwardEvaluation_initGradientData v t in
  mkActiveReal (fst r) (snd r).

Definition assignedPassive (v : Real) (t : GradientData) (c : PassiveReal)
    : ActiveReal :=
  let r := val (storePassive v t c) in
  mkActiveReal (lhsValue r) (lhsGradientData r).

(** The general [pushJacobi] called once per entry [(jacobi, value,
    tangent)] on the same accumulator, as the operands of one right hand
    side do. *)
Fixpoint pushAll (lhsTangent : Real)
    (l : list (Real * Real * GradientData)) : Traced Real Real :=
  match l with
  | [] => ret lhsTangent
  | (jacobi, value, curTangent) :: l' =>
      lhsTangent <- ForwardEvaluation_pushJacobi lhsTangent jacobi value
                      curTangent ;;
      pushAll lhsTangent l'
  end.

(** The variable [x] after [x.setGradient(newTangent)]. *)
Definition seeded (x : ActiveReal) (newTangent : Real) : ActiveReal :=
  mkActiveReal (primalValue x)
    (ForwardEvaluation_setGradient (gradientData x) newTangent).

End Codi.

Arguments ActiveReal Real : clear implicits.
Arguments Operation Real : clear implicits.
Arguments Expr Real : clear implicits.
Arguments Lhs Real : clear implicits.
Arguments query Real : clear implicits.
Arguments Reference Real : clear implicits.

(** ** An instance with exact arithmetic, and two operations *)

#[export] Instance Z_RealOps : RealOps Z Z := {
  Rzero := 0%Z;
  Rone := 1%Z;
  Radd := Z.add;
  Rmul := Z.mul;
  ofPassive := fun c => c
}.

(** [x * x], with derivative [2 * x]. *)
Definition square : Operation Z :=
  mkOperation "square" (fun x => x * x)%Z (fun x _ => 2 * x)%Z.

(** [x * x * x], with derivative [3 * x * x]. *)
Definition cube : Operation Z :=
  mkOperation "cube" (fun x => x * x * x)%Z (fun x _ => 3 * x * x)%Z.

(** [x] with value [2] and tangent [1]; [h = square(cube(x)) = x^6], so
    [dh/dx = 6 * 2^5 = 192]. *)
Definition x2 : ActiveReal Z := mkActiveReal 2%Z 1%Z.

Definition square_cube_x2 : Expr Z :=
  val (gx <- FUNC cube (Active x2) ;; FUNC square gx).

(** ** An instance with IEEE 754 binary64 arithmetic *)

(** [double]: precision 53, infinities at exponent 1024; sums, products and
    quotients are rounded to nearest, ties to even. *)
Definition binary64 : Type := spec_float.

Definition b64_ofZ (n : Z) : binary64 := binary_normalize 53 1024 n 0 false.

#[export] Instance binary64_RealOps : RealOps binary64 binary64 := {
  Rzero := S754_zero false;
  Rone := b64_ofZ 1;
  Radd := SFadd 53 1024;
  Rmul := SFmul 53 1024;
  ofPassive := fun c => c
}.

(** The [double] nearest to [n / 10]: [b64_tenths 1] is the literal [0.1],
    [b64_tenths 2] is [0.2], [b64_tenths 3] is [0.3]. *)
Definition b64_tenths (n : Z) : binary64 :=
  SFdiv 53 1024 (b64_ofZ n) (b64_ofZ 10).





(** * Properties *)

Section Properties.
Context {Real PassiveReal : Type} {ops : RealOps Real PassiveReal}.

(** ** The call log *)

Lemma val_bind (A B : Type) (c : Traced Real A) (k : A -> Traced Real B) :
  val (bind c k) = val (k (val c)).
Proof. reflexivity. Qed.

Lemma log_bind (A B : Type) (c : Traced Real A) (k : A -> Traced Real B) :
  log (bind c k) = log c ++ log (k (val c)).
Proof. reflexivity. Qed.

Lemma primalCalls_app (l1 l2 : list (event Real)) :
  primalCalls (l1 ++ l2) = (primalCalls l1 + primalCalls l2)%nat.
Proof.
  unfold primalCalls. rewrite filter_app, length_app. reflexivity.
Qed.

(** ** Propagation through a tree of unary nodes *)

(** What reaches the accumulator: the multiplier arriving at the leaf times
    the tangent of the variable there.  No law of the arithmetic is used. *)
Lemma Expr_calcGradientM_val (e : Expr Real) :
  forall gradient multiplier : Real,
    val (Expr_calcGradientM e gradient multiplier)
    = gradient + leafMultiplier e multiplier * gradientData (leaf e).
Proof.
  induction e as [x | op a IH r]; intros gradient multiplier.
  - reflexivity.
  - cbn [Expr_calcGradientM leafMultiplier leaf].
    rewrite val_bind. apply IH.
Qed.

Lemma Expr_calcGradientM_log_primal (e : Expr Real) :
  forall gradient multiplier : Real,
    primalCalls (log (Expr_calcGradientM e gradient multiplier)) = 0.
Proof.
  induction e as [x | op a IH r]; intros gradient multiplier.
  - reflexivity.
  - cbn [Expr_calcGradientM]. rewrite log_bind, primalCalls_app, IH.
    reflexivity.
Qed.

Lemma Expr_calcGradient_log_primal (e : Expr Real) (gradient : Real) :
  primalCalls (log (Expr_calcGradient e gradient)) = 0.
Proof.
  destruct e as [x | op a r].
  - reflexivity.
  - cbn [Expr_calcGradient]. rewrite log_bind, primalCalls_app.
    rewrite Expr_calcGradientM_log_primal. reflexivity.
Qed.

(** With an associative and commutative product, the multiplier at the
    leaf times the tangent is the incoming multiplier times the total
    derivative. *)
Lemma leafMultiplier_totalDerivative
    (assoc : Rmul_associative) (comm : Rmul_commutative) (e : Expr Real) :
  forall multiplier : Real,
    leafMultiplier e multiplier * gradientData (leaf e)
    = multiplier * totalDerivative e.
Proof.
  induction e as [x | op a IH r]; intros multiplier.
  - reflexivity.
  - cbn [leafMultiplier leaf totalDerivative]. rewrite IH.
    rewrite (comm (GRADIENT_FUNC op (Expr_getValue a) r) multiplier).
    symmetry. apply assoc.
Qed.

Lemma Expr_calcGradientM_linear
    (assoc : Rmul_associative) (comm : Rmul_commutative)
    (e : Expr Real) (gradient multiplier : Real) :
  val (Expr_calcGradientM e gradient multiplier)
  = gradient + multiplier * totalDerivative e.
Proof.
  rewrite Expr_calcGradientM_val.
  rewrite leafMultiplier_totalDerivative by assumption. reflexivity.
Qed.

Lemma Expr_calcGradient_additive
    (assoc : Rmul_associative) (comm : Rmul_commutative)
    (e : Expr Real) (gradient : Real) :
  val (Expr_calcGradient e gradient) = gradient + totalDerivative e.
Proof.
  destruct e as [x | op a r].
  - reflexivity.
  - cbn [Expr_calcGradient totalDerivative]. rewrite val_bind.
    apply Expr_calcGradientM_linear; assumption.
Qed.

Lemma session_log_primal (e : Expr Real) (qs : list (query Real)) :
  primalCalls (log (session e qs)) = 0.
Proof.
  induction qs as [| q qs IH].
  - reflexivity.
  - cbn [session]. rewrite !log_bind, !primalCalls_app, IH.
    destruct q; cbn [invoke].
    + reflexivity.
    + rewrite Expr_calcGradient_log_primal. reflexivity.
    + rewrite Expr_calcGradientM_log_primal. reflexivity.
Qed.

Lemma session_answered (e : Expr Real) (qs : list (query Real)) :
  Forall2 (answered (Expr_getValue e)) qs (val (session e qs)).
Proof.
  induction qs as [| q qs IH].
  - constructor.
  - cbn [session]. rewrite !val_bind. cbn [ret val].
    constructor; [destruct q; exact I || reflexivity | exact IH].
Qed.

(** ** The claims *)

(** C1.  Chain rule: for generated operations [f] and [g] and an active
    variable [x] of the forward tape, propagating the derivative of
    [h = f(g(x))] adds [f'(g(x)) * g'(x)] times the tangent of [x] to the
    accumulator; and [calcGradient(gradient, multiplier)] of a generated
    node hands the product of its local derivative and [multiplier] to its
    operand. *)
Theorem chain_rule (comm : Rmul_commutative)
    (f g : Operation Real) (x : ActiveReal Real) (gradient : Real) :
  let v := primalValue x in
  let gv := PRIMAL_CALL g v in
  let fgv := PRIMAL_CALL f gv in
  let h := val (gx <- FUNC g (Active x) ;; FUNC f gx) in
  val (Expr_calcGradient h gradient)
  = gradient + (GRADIENT_FUNC f gv fgv * GRADIENT_FUNC g v gv) * gradientData x
  /\ forall (op : Operation Real) (a : Expr Real) (r acc m : Real),
       Expr_calcGradientM (OP op a r) acc m
       = (emit (GradientCall (NAME op) (Expr_getValue a) r) ;;
          Expr_calcGradientM a acc (GRADIENT_FUNC op (Expr_getValue a) r * m)).
Proof.
  cbn zeta. split; [| reflexivity].
  cbn. f_equal. f_equal. apply comm.
Qed.

(** The general overload of [store] never assigns its output parameter
    [value]: the left hand side keeps the primal value it had before the
    call, whatever the right hand side. *)
Lemma store_keeps_value (Rhs : Type) (E : Expression Rhs)
    (value : Real) (lhsTangent : GradientData) (rhs : Rhs) :
  lhsValue (val (store value lhsTangent rhs)) = value.
Proof. reflexivity. Qed.


(** C4.  Both overloads of [pushJacobi] add to the accumulator: from [a]
    the optimized one leaves [a + t], the general one [a + j * t]; and for
    [y = x + x] the tangent stored for [y] is the sum of the contributions
    of the two occurrences of [x]. *)
Theorem pushJacobi_accumulates (a v t j : Real) (x : ActiveReal Real)
    (value : Real) (lhsTangent : GradientData) :
  val (ForwardEvaluation_pushJacobiOne a v t) = a + t
  /\ val (ForwardEvaluation_pushJacobi a j v t) = a + j * t
  /\ lhsGradientData (val (store value lhsTangent (Add_new x x)))
     = (Rzero + gradientData x) + gradientData x.
Proof. repeat split. Qed.

(** C5.  When the right hand side is an active variable, [store] copies
    its derivative and its primal value as they are, and calls neither a
    primal function, nor a derivative formula, nor [pushJacobi]. *)
Theorem storeActive_copies (value : Real) (lhsTangent : GradientData)
    (rhs : ActiveReal Real) :
  val (storeActive value lhsTangent rhs)
  = mkLhs (primalValue rhs) (gradientData rhs)
  /\ log (storeActive value lhsTangent rhs) = [].
Proof. split; reflexivity. Qed.

(** C6.  For a passive constant [c], [store] sets the tangent to zero and
    the value to [c], whatever [c] is and whatever the tangent held. *)
Theorem storePassive_zero_tangent (value : Real) (tangent : GradientData)
    (c : PassiveReal) :
  val (storePassive value tangent c) = mkLhs (ofPassive c) Rzero.
Proof. reflexivity. Qed.

(** C7.  A generated node calls its primal function once, in its
    constructor, and keeps the result; every later [getValue()] returns
    that result, and no sequence of [getValue] and [calcGradient] calls
    evaluates the primal function again. *)
Theorem primal_memoized (op : Operation Real) (a : Expr Real)
    (qs : list (query Real)) :
  let n := val (FUNC op a) in
  let result := PRIMAL_CALL op (Expr_getValue a) in
  log (FUNC op a) = [PrimalCall (NAME op) (Expr_getValue a)]
  /\ n = OP op a result
  /\ Expr_getValue n = result
  /\ primalCalls (log (session n qs)) = 0
  /\ Forall2 (answered result) qs (val (session n qs)).
Proof.
  cbn zeta. repeat split.
  - apply session_log_primal.
  - apply (session_answered (OP op a (PRIMAL_CALL op (Expr_getValue a)))).
Qed.

(** C8.  The optimized overload of [pushJacobi] has the effect on the
    accumulator of the general one called with Jacobian one: both leave
    [a] plus the tangent held in [g]. *)
Theorem pushJacobiOne_is_pushJacobi_one (one : Rmul_one_left)
    (a v : Real) (g : GradientData) :
  val (ForwardEvaluation_pushJacobiOne a v g)
  = val (ForwardEvaluation_pushJacobi a Rone v g)
  /\ val (ForwardEvaluation_pushJacobiOne a v g) = a + g
  /\ val (ForwardEvaluation_pushJacobi a Rone v g) = a + g.
Proof.
  cbn. rewrite one. repeat split.
Qed.


(** C10.  On a generated unary node, [calcGradient(accumulator)] does what
    [calcGradient(accumulator, multiplier)] does with multiplier one. *)
Theorem calcGradient_is_calcGradientM_one (one : Rmul_one_right)
    (op : Operation Real) (a : Expr Real) (r gradient : Real) :
  Expr_calcGradient (OP op a r) gradient
  = Expr_calcGradientM (OP op a r) gradient Rone.
Proof.
  cbn [Expr_calcGradient Expr_calcGradientM]. rewrite one. reflexivity.
Qed.

(** ** Further properties of the tape and of the generated nodes *)

Lemma compose_val_getValue (fs : list (Operation Real)) (x : ActiveReal Real) :
  Expr_getValue (val (compose fs x)) = chainValue fs (primalValue x).
Proof.
  induction fs as [| f fs IH].
  - reflexivity.
  - cbn [compose chainValue]. rewrite val_bind. cbn. rewrite IH. reflexivity.
Qed.

Lemma compose_leaf (fs : list (Operation Real)) (x : ActiveReal Real) :
  leaf (val (compose fs x)) = x.
Proof.
  induction fs as [| f fs IH].
  - reflexivity.
  - cbn [compose]. rewrite val_bind. cbn. exact IH.
Qed.

Lemma compose_log (fs : list (Operation Real)) (x : ActiveReal Real) :
  log (compose fs x) = primalLog fs (primalValue x).
Proof.
  induction fs as [| f fs IH].
  - reflexivity.
  - cbn [compose primalLog]. rewrite log_bind, IH.
    cbn. rewrite compose_val_getValue. reflexivity.
Qed.

Lemma primalLog_primalCalls (fs : list (Operation Real)) (v : Real) :
  primalCalls (primalLog fs v) = List.length fs.
Proof.
  induction fs as [| f fs IH].
  - reflexivity.
  - cbn [primalLog List.length]. rewrite primalCalls_app, IH.
    cbn. apply PeanoNat.Nat.add_1_r.
Qed.

Lemma compose_depth (fs : list (Operation Real)) (x : ActiveReal Real) :
  depth (val (compose fs x)) = List.length fs.
Proof.
  induction fs as [| f fs IH].
  - reflexivity.
  - cbn [compose]. rewrite val_bind. cbn. now rewrite IH.
Qed.

Lemma Expr_calcGradientM_zero_leaf
    (zero : Radd_zero_right) (mzero : Rmul_zero_right)
    (e : Expr Real) (gradient multiplier : Real) :
  gradientData (leaf e) = Rzero ->
  val (Expr_calcGradientM e gradient multiplier) = gradient.
Proof.
  intros H. rewrite Expr_calcGradientM_val, H, mzero. apply zero.
Qed.

Lemma Expr_calcGradient_zero_leaf
    (zero : Radd_zero_right) (mzero : Rmul_zero_right)
    (e : Expr Real) (gradient : Real) :
  gradientData (leaf e) = Rzero ->
  val (Expr_calcGradient e gradient) = gradient.
Proof.
  intros H. destruct e as [x | op a r].
  - cbn in *. rewrite H. apply zero.
  - cbn [Expr_calcGradient]. rewrite val_bind.
    apply Expr_calcGradientM_zero_leaf; assumption.
Qed.

Lemma compose_totalDerivative
    (assoc : Rmul_associative) (one : Rmul_one_left)
    (fs : list (Operation Real)) (x : ActiveReal Real) :
  totalDerivative (val (compose fs x))
  = chainDerivative fs (primalValue x) * gradientData x.
Proof.
  induction fs as [| f fs IH].
  - cbn. symmetry. apply one.
  - cbn [compose chainDerivative chainValue]. rewrite val_bind.
    cbn [FUNC OP_new bind emit ret val totalDerivative].
    rewrite IH, compose_val_getValue. apply assoc.
Qed.

Lemma store_compose
    (zero : Radd_zero_left) (assoc : Rmul_associative)
    (comm : Rmul_commutative) (one : Rmul_one_left)
    (value : Real) (lhsTangent : GradientData)
    (fs : list (Operation Real)) (x : ActiveReal Real) :
  lhsGradientData (val (store value lhsTangent (val (compose fs x))))
  = chainDerivative fs (primalValue x) * gradientData x.
Proof.
  unfold store. rewrite val_bind. cbn [ret val lhsGradientData].
  cbn [calcGradient Expr_Expression].
  rewrite Expr_calcGradient_additive by assumption.
  rewrite zero. apply compose_totalDerivative; assumption.
Qed.

Lemma Expr_calcGradientM_log (e : Expr Real) :
  forall gradient multiplier : Real,
    log (Expr_calcGradientM e gradient multiplier)
    = gradientLog e
      ++ [PushJacobi (leafMultiplier e multiplier)
            (primalValue (leaf e)) (gradientData (leaf e))].
Proof.
  induction e as [x | op a IH r]; intros gradient multiplier.
  - reflexivity.
  - cbn [Expr_calcGradientM gradientLog leafMultiplier leaf].
    rewrite log_bind, IH. reflexivity.
Qed.

Lemma gradientLog_length (e : Expr Real) :
  List.length (gradientLog e) = depth e.
Proof.
  induction e as [x | op a IH r]; cbn; [reflexivity | now rewrite IH].
Qed.

(** X1.  Propagation with a multiplier through a tree of unary nodes calls
    the derivative formula of each node once, from the root down, and then
    pushes one Jacobian to the tape: the multiplier that reached the
    variable, with the variable's value and tangent. *)
Theorem calcGradientM_calls (e : Expr Real) (gradient multiplier : Real) :
  log (Expr_calcGradientM e gradient multiplier)
  = gradientLog e
    ++ [PushJacobi (leafMultiplier e multiplier)
          (primalValue (leaf e)) (gradientData (leaf e))]
  /\ List.length (log (Expr_calcGradientM e gradient multiplier))
     = S (depth e)
  /\ primalCalls (log (Expr_calcGradientM e gradient multiplier)) = 0.
Proof.
  split; [apply Expr_calcGradientM_log |].
  split; [| apply Expr_calcGradientM_log_primal].
  rewrite Expr_calcGradientM_log, length_app, gradientLog_length.
  cbn. rewrite PeanoNat.Nat.add_1_r. reflexivity.
Qed.

(** X2.  The general [store]: on a generated node it calls the node's
    derivative formula first and ends with one general Jacobian push; on a
    bare variable it makes the optimized push only; in both cases no
    primal function is evaluated. *)
Theorem store_calls (value : Real) (lhsTangent : GradientData)
    (op : Operation Real) (a : Expr Real) (r : Real) (x : ActiveReal Real) :
  log (store value lhsTangent (OP op a r))
  = gradientLog (OP op a r)
    ++ [PushJacobi
          (leafMultiplier a (GRADIENT_FUNC op (Expr_getValue a) r))
          (primalValue (leaf a)) (gradientData (leaf a))]
  /\ log (store value lhsTangent (Active x))
     = [PushJacobiOne (primalValue x) (gradientData x)]
  /\ primalCalls (log (store value lhsTangent (OP op a r))) = 0.
Proof.
  assert (L : log (store value lhsTangent (OP op a r))
              = GradientCall (NAME op) (Expr_getValue a) r
                :: log (Expr_calcGradientM a Rzero
                          (GRADIENT_FUNC op (Expr_getValue a) r))).
  { unfold store. rewrite log_bind. cbn [ret log].
    rewrite app_nil_r. reflexivity. }
  split; [| split; [reflexivity |]].
  - rewrite L, Expr_calcGradientM_log. reflexivity.
  - rewrite L. change (GradientCall (NAME op) (Expr_getValue a) r :: ?l)
      with ([GradientCall (NAME op) (Expr_getValue a) r] ++ l).
    rewrite primalCalls_app, Expr_calcGradientM_log_primal. reflexivity.
Qed.

(** X3.  Whatever the arithmetic of [Real], propagation adds one term to
    the accumulator and that term does not depend on the accumulator; the
    calls it makes do not depend on the accumulator either. *)
Theorem calcGradientM_translates (e : Expr Real) (multiplier : Real) :
  (exists c : Real, forall gradient : Real,
      val (Expr_calcGradientM e gradient multiplier) = gradient + c)
  /\ forall gradient gradient' : Real,
       log (Expr_calcGradientM e gradient multiplier)
       = log (Expr_calcGradientM e gradient' multiplier).
Proof.
  split.
  - exists (leafMultiplier e multiplier * gradientData (leaf e)).
    intros gradient. apply Expr_calcGradientM_val.
  - intros gradient gradient'. rewrite !Expr_calcGradientM_log. reflexivity.
Qed.

(** X4.  Building [f1(f2(... fn(x)))] with the generated free functions
    evaluates each primal function once, innermost first, on the value of
    its argument, and the value of the resulting node is the composition
    of the primal functions at the value of [x]. *)
Theorem compose_primal (fs : list (Operation Real)) (x : ActiveReal Real) :
  Expr_getValue (val (compose fs x)) = chainValue fs (primalValue x)
  /\ log (compose fs x) = primalLog fs (primalValue x)
  /\ primalCalls (log (compose fs x)) = List.length fs
  /\ depth (val (compose fs x)) = List.length fs
  /\ leaf (val (compose fs x)) = x.
Proof.
  split; [apply compose_val_getValue |].
  split; [apply compose_log |].
  split; [rewrite compose_log; apply primalLog_primalCalls |].
  split; [apply compose_depth | apply compose_leaf].
Qed.

(** X5.  Chain rule for chains of any length: storing [f1(f2(... fn(x)))]
    leaves as tangent the chain-rule derivative of the composition at the
    value of [x] times the tangent of [x]. *)
Theorem store_chain_rule
    (zero : Radd_zero_left) (assoc : Rmul_associative)
    (comm : Rmul_commutative) (one : Rmul_one_left)
    (value : Real) (lhsTangent : GradientData)
    (fs : list (Operation Real)) (x : ActiveReal Real) :
  lhsGradientData (val (store value lhsTangent (val (compose fs x))))
  = chainDerivative fs (primalValue x) * gradientData x.
Proof. apply store_compose; assumption. Qed.

(** X6.  Seeding: after [x.setGradient(1)], storing [f1(f2(... fn(x)))]
    and reading the stored tangent with [getGradient] yields the
    derivative of the composition at the value of [x]. *)
Theorem seed_one_reads_derivative
    (zero : Radd_zero_left) (assoc : Rmul_associative)
    (comm : Rmul_commutative) (one : Rmul_one_left)
    (one' : Rmul_one_right)
    (value : Real) (lhsTangent : GradientData)
    (fs : list (Operation Real)) (x : ActiveReal Real) :
  ForwardEvaluation_getGradient
    (lhsGradientData
       (val (store value lhsTangent (val (compose fs (seeded x Rone))))))
  = chainDerivative fs (primalValue x).
Proof.
  unfold ForwardEvaluation_getGradient.
  rewrite store_compose by assumption. cbn. apply one'.
Qed.

(** X7.  A variable that was only initialised by [initGradientData], or
    last assigned a passive constant, contributes nothing: propagation
    through any chain over it leaves the accumulator as it was, and
    storing the chain leaves a zero tangent. *)
Theorem zero_tangent_contributes_nothing
    (zero : Radd_zero_right) (mzero : Rmul_zero_right)
    (fs : list (Operation Real)) (v : Real) (t : GradientData)
    (c : PassiveReal) (a m value : Real) (lhsTangent : GradientData) :
  val (Expr_calcGradientM (val (compose fs (initialised v t))) a m) = a
  /\ val (Expr_calcGradientM (val (compose fs (assignedPassive v t c))) a m)
     = a
  /\ lhsGradientData
       (val (store value lhsTangent (val (compose fs (initialised v t)))))
     = Rzero
  /\ lhsGradientData
       (val (store value lhsTangent (val (compose fs (assignedPassive v t c)))))
     = Rzero.
Proof.
  repeat split.
  - apply Expr_calcGradientM_zero_leaf; try assumption.
    rewrite compose_leaf. reflexivity.
  - apply Expr_calcGradientM_zero_leaf; try assumption.
    rewrite compose_leaf. reflexivity.
  - unfold store. rewrite val_bind. cbn [ret val lhsGradientData].
    apply (Expr_calcGradient_zero_leaf zero mzero).
    rewrite compose_leaf. reflexivity.
  - unfold store. rewrite val_bind. cbn [ret val lhsGradientData].
    apply (Expr_calcGradient_zero_leaf zero mzero).
    rewrite compose_leaf. reflexivity.
Qed.

Lemma pushAll_val_cons (a : Real) (j v : Real) (t : GradientData)
    (l : list (Real * Real * GradientData)) :
  val (pushAll a ((j, v, t) :: l)) = val (pushAll (a + j * t) l).
Proof. reflexivity. Qed.

(** X8.  The accessors of a gradient handle of the forward tape:
    [getGradient] after [setGradient] returns what was set; setting what
    [getGradient] returns changes nothing; of two [setGradient] the last
    one wins; [initGradientData] leaves a zero tangent whatever the handle
    held and does not touch the value; [destroyGradientData] changes
    neither the value nor what [getGradient] returns. *)
Theorem gradient_handle_accessors (value : Real) (tangent : GradientData)
    (n n' : Real) :
  ForwardEvaluation_getGradient (ForwardEvaluation_setGradient tangent n) = n
  /\ ForwardEvaluation_setGradient tangent
       (ForwardEvaluation_getGradient tangent) = tangent
  /\ ForwardEvaluation_setGradient
       (ForwardEvaluation_setGradient tangent n) n'
     = ForwardEvaluation_setGradient tangent n'
  /\ ForwardEvaluation_getGradient
       (snd (ForwardEvaluation_initGradientData value tangent)) = Rzero
  /\ fst (ForwardEvaluation_initGradientData value tangent) = value
  /\ ForwardEvaluation_destroyGradientData value
       (ForwardEvaluation_setGradient tangent n) = (value, n).
Proof. repeat split. Qed.

(** The reference returned by [gradient] designates the handle:
    reading it is [getGradient], assigning through it is [setGradient],
    and what was assigned is read back by [getGradient] and by a second
    call of [gradient]. *)
Lemma gradient_reference (tangent : GradientData) (n : Real) :
  deref (ForwardEvaluation_gradient tangent)
  = ForwardEvaluation_getGradient tangent
  /\ assign (ForwardEvaluation_gradient tangent) n
     = ForwardEvaluation_setGradient tangent n
  /\ ForwardEvaluation_getGradient
       (assign (ForwardEvaluation_gradient tangent) n) = n
  /\ deref (ForwardEvaluation_gradient
              (assign (ForwardEvaluation_gradient tangent) n)) = n.
Proof. repeat split. Qed.

(** X9.  With an associative and commutative sum, the tangent that a
    series of [pushJacobi] calls accumulates does not depend on the order
    of the calls. *)
Theorem pushJacobi_order_irrelevant
    (assoc : Radd_associative) (comm : Radd_commutative)
    (l l' : list (Real * Real * GradientData)) :
  Permutation l l' ->
  forall a : Real, val (pushAll a l) = val (pushAll a l').
Proof.
  induction 1 as [| [[j v] t] l l' _ IH
                  | [[j1 v1] t1] [[j2 v2] t2] l
                  | l l' l'' _ IH1 _ IH2]; intros a.
  - reflexivity.
  - rewrite !pushAll_val_cons. apply IH.
  - rewrite !pushAll_val_cons. f_equal.
    rewrite <- !assoc. rewrite (comm (j2 * t2) (j1 * t1)). reflexivity.
  - rewrite IH1. apply IH2.
Qed.

(** X10.  On a bare active variable the general overload of [store]
    leaves the tangent that the overload for active variables leaves,
    provided [0 + x = x]; it gets there by one optimized push, where the
    overload for active variables makes no call. *)
Theorem store_general_agrees_on_variable (zero : Radd_zero_left)
    (value : Real) (lhsTangent : GradientData) (x : ActiveReal Real) :
  lhsGradientData (val (store value lhsTangent x))
  = lhsGradientData (val (storeActive value lhsTangent x))
  /\ log (store value lhsTangent x)
     = [PushJacobiOne (primalValue x) (gradientData x)]
  /\ log (storeActive value lhsTangent x) = [].
Proof.
  split; [| split; reflexivity].
  cbn. apply zero.
Qed.

End Properties.

(** * The properties at the instance with exact arithmetic *)

Lemma Z_Radd_zero_left : Radd_zero_left (ops := Z_RealOps).
Proof. intros x. reflexivity. Defined.

Lemma Z_Rmul_one_left : Rmul_one_left (ops := Z_RealOps).
Proof. intros x. cbn. destruct x; reflexivity. Defined.

Lemma Z_Rmul_one_right : Rmul_one_right (ops := Z_RealOps).
Proof. intros x. cbn. lia. Defined.

Lemma Z_Rmul_commutative : Rmul_commutative (ops := Z_RealOps).
Proof. intros x y. cbn. lia. Defined.

Lemma Z_Rmul_associative : Rmul_associative (ops := Z_RealOps).
Proof. intros x y z. cbn. lia. Defined.

Example square_cube_x2_value : Expr_getValue square_cube_x2 = 64%Z.
Proof. reflexivity. Qed.

Example square_cube_x2_store :
  val (store 0%Z 7%Z square_cube_x2) = mkLhs 0%Z 192%Z.
Proof. reflexivity. Qed.

Example square_cube_x2_primal_calls :
  log (gx <- FUNC cube (Active x2) ;; FUNC square gx)
  = [PrimalCall "cube" 2%Z; PrimalCall "square" 8%Z].
Proof. reflexivity. Qed.

Example x_plus_x_store :
  val (store 0%Z 7%Z (Add_new x2 x2)) = mkLhs 0%Z 2%Z.
Proof. reflexivity. Qed.

(** C2, the code at one right hand side.  The claim asks that the general
    overload of [store] leaves [value] equal to [rhs.getValue()].  With [x]
    of value [3] and a left hand side holding [7] before [lhs = square(x)],
    [store] leaves [7] where the value of the right hand side is [9]. *)
Theorem store_general_value_not_written :
  let rhs := val (FUNC square (Active (mkActiveReal 3%Z 1%Z))) in
  lhsValue (val (store 7%Z 0%Z rhs)) = 7%Z
  /\ Expr_getValue rhs = 9%Z
  /\ lhsValue (val (store 7%Z 0%Z rhs)) <> Expr_getValue rhs.
Proof. cbn. repeat split. discriminate. Qed.

Lemma chain_rule_witness :
  Rmul_commutative (ops := Z_RealOps)
  /\ val (Expr_calcGradient square_cube_x2 5%Z) = (5 + (2 * 8) * (3 * 2 * 2) * 1)%Z.
Proof.
  split; [exact Z_Rmul_commutative |].
  exact (proj1 (chain_rule Z_Rmul_commutative square cube x2 5%Z)).
Defined.


Lemma pushJacobiOne_is_pushJacobi_one_witness :
  Rmul_one_left (ops := Z_RealOps)
  /\ val (ForwardEvaluation_pushJacobiOne 5%Z 2%Z 3%Z)
     = val (ForwardEvaluation_pushJacobi 5%Z 1%Z 2%Z 3%Z).
Proof.
  split; [exact Z_Rmul_one_left |].
  exact (proj1 (pushJacobiOne_is_pushJacobi_one Z_Rmul_one_left 5%Z 2%Z 3%Z)).
Defined.


Lemma calcGradient_is_calcGradientM_one_witness :
  Rmul_one_right (ops := Z_RealOps)
  /\ Expr_calcGradient (OP square (Active x2) 4%Z) 5%Z
     = Expr_calcGradientM (OP square (Active x2) 4%Z) 5%Z 1%Z.
Proof.
  split; [exact Z_Rmul_one_right |].
  exact (calcGradient_is_calcGradientM_one Z_Rmul_one_right
    square (Active x2) 4%Z 5%Z).
Defined.

(** * The further properties at the instance with exact arithmetic *)

Lemma Z_Radd_zero_right : Radd_zero_right (ops := Z_RealOps).
Proof. intros x. cbn. lia. Defined.

Lemma Z_Rmul_zero_right : Rmul_zero_right (ops := Z_RealOps).
Proof. intros x. cbn. lia. Defined.

Lemma Z_Radd_commutative : Radd_commutative (ops := Z_RealOps).
Proof. intros x y. cbn. lia. Defined.

Lemma Z_Radd_associative : Radd_associative (ops := Z_RealOps).
Proof. intros x y z. cbn. lia. Defined.

Example compose_square_cube_x2 :
  val (compose [square; cube] x2) = square_cube_x2
  /\ chainValue [square; cube] 2%Z = 64%Z
  /\ chainDerivative [square; cube] 2%Z = 192%Z.
Proof. repeat split. Qed.

Lemma store_chain_rule_witness :
  Radd_zero_left (ops := Z_RealOps)
  /\ Rmul_associative (ops := Z_RealOps)
  /\ Rmul_commutative (ops := Z_RealOps)
  /\ Rmul_one_left (ops := Z_RealOps)
  /\ lhsGradientData
       (val (store 0%Z 7%Z
               (val (compose [square; cube] (mkActiveReal 2%Z 5%Z)))))
     = (192 * 5)%Z.
Proof.
  split; [exact Z_Radd_zero_left |].
  split; [exact Z_Rmul_associative |].
  split; [exact Z_Rmul_commutative |].
  split; [exact Z_Rmul_one_left |].
  exact (store_chain_rule Z_Radd_zero_left Z_Rmul_associative
    Z_Rmul_commutative Z_Rmul_one_left 0%Z 7%Z [square; cube]
    (mkActiveReal 2%Z 5%Z)).
Defined.

Lemma seed_one_reads_derivative_witness :
  Radd_zero_left (ops := Z_RealOps)
  /\ Rmul_associative (ops := Z_RealOps)
  /\ Rmul_commutative (ops := Z_RealOps)
  /\ Rmul_one_left (ops := Z_RealOps)
  /\ Rmul_one_right (ops := Z_RealOps)
  /\ ForwardEvaluation_getGradient
       (lhsGradientData
          (val (store 0%Z 7%Z
                  (val (compose [square; cube]
                          (seeded (mkActiveReal 2%Z 0%Z) 1%Z))))))
     = 192%Z.
Proof.
  split; [exact Z_Radd_zero_left |].
  split; [exact Z_Rmul_associative |].
  split; [exact Z_Rmul_commutative |].
  split; [exact Z_Rmul_one_left |].
  split; [exact Z_Rmul_one_right |].
  exact (seed_one_reads_derivative Z_Radd_zero_left Z_Rmul_associative
    Z_Rmul_commutative Z_Rmul_one_left Z_Rmul_one_right 0%Z 7%Z
    [square; cube] (mkActiveReal 2%Z 0%Z)).
Defined.

Lemma zero_tangent_contributes_nothing_witness :
  Radd_zero_right (ops := Z_RealOps)
  /\ Rmul_zero_right (ops := Z_RealOps)
  /\ val (Expr_calcGradientM
            (val (compose [square; cube] (initialised 2%Z 9%Z))) 5%Z 10%Z)
     = 5%Z.
Proof.
  split; [exact Z_Radd_zero_right |].
  split; [exact Z_Rmul_zero_right |].
  exact (proj1 (zero_tangent_contributes_nothing Z_Radd_zero_right
    Z_Rmul_zero_right [square; cube] 2%Z 9%Z 4%Z 5%Z 10%Z 0%Z 7%Z)).
Defined.

Lemma pushJacobi_order_irrelevant_witness :
  Radd_associative (ops := Z_RealOps)
  /\ Radd_commutative (ops := Z_RealOps)
  /\ Permutation [(2, 0, 3); (5, 0, 7)]%Z [(5, 0, 7); (2, 0, 3)]%Z
  /\ val (pushAll 1%Z [(2, 0, 3); (5, 0, 7)]%Z)
     = val (pushAll 1%Z [(5, 0, 7); (2, 0, 3)]%Z).
Proof.
  split; [exact Z_Radd_associative |].
  split; [exact Z_Radd_commutative |].
  split; [apply perm_swap |].
  exact (pushJacobi_order_irrelevant Z_Radd_associative Z_Radd_commutative
    (perm_swap (5, 0, 7)%Z (2, 0, 3)%Z []) 1%Z).
Defined.

Lemma store_general_agrees_on_variable_witness :
  Radd_zero_left (ops := Z_RealOps)
  /\ lhsGradientData (val (store 0%Z 7%Z x2))
     = lhsGradientData (val (storeActive 0%Z 7%Z x2)).
Proof.
  split; [exact Z_Radd_zero_left |].
  exact (proj1 (store_general_agrees_on_variable Z_Radd_zero_left 0%Z 7%Z x2)).
Defined.

(** * The properties at binary64 *)

Example b64_tenths_values :
  b64_tenths 1 = S754_finite false 7205759403792794 (-56)
  /\ b64_tenths 2 = S754_finite false 7205759403792794 (-55)
  /\ b64_tenths 3 = S754_finite false 5404319552844595 (-54).
Proof. vm_compute. repeat split. Qed.

(** In binary64 the product is not associative:
    [(0.1 * 0.2) * 0.3] is one unit in the last place above
    [0.2 * (0.1 * 0.3)]. *)
Lemma binary64_not_Rmul_associative :
  ~ Rmul_associative (ops := binary64_RealOps).
Proof.
  intros assoc.
  specialize (assoc (b64_tenths 2) (b64_tenths 1) (b64_tenths 3)).
  vm_compute in assoc. discriminate.
Qed.


